(** * The Graphs endpoint of graphspace_python

    A shallow embedding of [graphspace_python/api/endpoint/graphs.py]: the
    [Graphs] class, whose methods turn a call into requests on the client's
    [_make_request], and wrap the decoded response.

    Python values are modelled as follows.
    - A decoded JSON document is a [JSON] value; a [dict] with string keys is
      a [gmap string JSON] (key order plays no role in this module).
    - A method is a computation in the monad [M]: it threads the state of the
      outside world (the service behind the transport), may raise a Python
      exception, and records every request handed to [_make_request].
    - [name], [graph_id], [owner_email] and [tags] default to [None] in the
      source: they are [option]s here; [graph_id] and [graph.id] are the
      integers the docstrings give them as. *)

From Stdlib Require Import ZArith String Floats DecimalString.
From Stdlib Require Import DecimalZ DecimalPos.
From stdpp Require Import gmap strings list fin_maps.

#[local] Set Warnings "-register-all".
#[local] Open Scope Z_scope.

(** ** Decoded JSON

    What [json.loads] yields: [None], [bool], [int], [float], [str], [list]
    and [dict] with string keys. *)

Inductive JSON : Type :=
| JNull
| JBool (b : bool)
| JInt (z : Z)
| JFloat (f : float)
| JStr (s : string)
| JList (l : list JSON)
| JObj (o : gmap string JSON).

(** ** Requests and exceptions *)

Inductive Method : Type := GET | POST | PUT | DELETE.

(** One call [_make_request(method, path, data=..., url_params=...)]. *)
Record Request : Type := mkRequest {
  method : Method;
  path : string;
  data : option (gmap string JSON);
  url_params : option (gmap string JSON);
}.

(** The exceptions that can leave a method: [Exception(msg)] raised by the
    endpoint itself, [GraphSpaceError] raised by the transport, and the
    built-in errors of the dictionary and list operations on a response. *)
Inductive PyExc : Type :=
| Exception (msg : string)
| GraphSpaceError (msg : string)
| KeyError (key : JSON)
| IndexError
| TypeError
| AttributeError.

(** ** Python primitives used by the endpoint *)

(** [str(n)] for an integer [n]. *)
Definition str (n : Z) : string := NilZero.string_of_int (Z.to_int n).

(** [response.get(key, dflt)]: only a [dict] has [get]. *)
Definition py_get (response : JSON) (key : string) (dflt : JSON) : PyExc + JSON :=
  match response with
  | JObj d => inr (default dflt (d !! key))
  | _ => inl AttributeError
  end.

(** [response[key]] for a string [key]. *)
Definition py_getitem (response : JSON) (key : string) : PyExc + JSON :=
  match response with
  | JObj d =>
      match d !! key with
      | Some v => inr v
      | None => inl (KeyError (JStr key))
      end
  | _ => inl TypeError
  end.

(** [v[0]]. *)
Definition py_first (v : JSON) : PyExc + JSON :=
  match v with
  | JList (x :: _) => inr x
  | JList [] => inl IndexError
  | JStr (String c _) => inr (JStr (String c EmptyString))
  | JStr EmptyString => inl IndexError
  | JObj _ => inl (KeyError (JInt 0))
  | _ => inl TypeError
  end.

(** [v > 0], with the semantics of Python 3: an integer, a boolean ([True]
    is [1]) or a float is compared with [0]; ordering anything else against
    an integer raises [TypeError]. *)
Definition py_gt_zero (v : JSON) : PyExc + bool :=
  match v with
  | JInt z => inr (0 <? z)
  | JBool b => inr b
  | JFloat f => inr (PrimFloat.ltb PrimFloat.zero f)
  | _ => inl TypeError
  end.

(** [needle in haystack] for strings, as a proposition. *)
Definition contains (needle haystack : string) : Prop :=
  ∃ before after : string, haystack = before +:+ needle +:+ after.

(** ** The domain objects

    The classes [Graph], [GSGraph] and [APIResponse] live in other modules of
    the package; the endpoint uses them only through [graph.json()],
    [graph.id], [APIResponse('graph', r).graph] and
    [APIResponse('graph', r).graphs]. *)
Class ObjectModel : Type := {
  Entity : Type;
  json : Entity → gmap string JSON;
  Graph : Type;
  Graph_id : Graph → option Z;
  APIResponse_graph : JSON → PyExc + Graph;
  APIResponse_graphs : JSON → PyExc + list Graph;
}.

(** ** The client: [client.username] and [client._make_request] *)
Record Client (World : Type) : Type := mkClient {
  username : string;
  _make_request : Request → World → (PyExc + JSON) * World;
}.
Arguments mkClient {World} _ _.
Arguments username {World} _.
Arguments _make_request {World} _ _ _.

(** ** The monad of endpoint methods *)

Record Run (World A : Type) : Type := mkRun {
  result : PyExc + A;
  world : World;
  requests : list Request;
}.
Arguments mkRun {World A} _ _ _.
Arguments result {World A} _.
Arguments world {World A} _.
Arguments requests {World A} _.

Definition M (World A : Type) : Type := World → Run World A.

#[export] Instance M_ret {World} : MRet (M World) :=
  λ A (a : A) w, mkRun (inr a) w [].

#[export] Instance M_bind {World} : MBind (M World) :=
  λ A B (k : A → M World B) (m : M World A) w,
    let r := m w in
    match result r with
    | inl e => mkRun (inl e) (world r) (requests r)
    | inr a =>
        let r' := k a (world r) in
        mkRun (result r') (world r') (requests r ++ requests r')
    end.

Definition raise {World A} (e : PyExc) : M World A :=
  λ w, mkRun (inl e) w [].

(** A pure step that may raise. *)
Definition lift {World A} (x : PyExc + A) : M World A :=
  λ w, mkRun x w [].

(** [self.client._make_request(...)]: the request is recorded whether the
    transport answers or raises. *)
Definition call {World} (client : Client World) (req : Request) : M World JSON :=
  λ w, let '(x, w') := _make_request client req w in mkRun x w' [req].

(** The number of calls to [_make_request] a method makes from world [w]. *)
Definition n_calls {World A} (m : M World A) (w : World) : nat :=
  length (requests (m w)).

(** ** The endpoint: class [Graphs] *)

Module Graphs.
Section Methods.
Context {World : Type} {objects : ObjectModel}.

(** [GRAPHS_PATH], imported from [graphspace_python.api.config]. *)
Variable GRAPHS_PATH : string.

(** [self.client]. *)
Variable client : Client World.

#[local] Abbreviation Op := (M World).

Definition both_none_message : string :=
  "Both graph_id and name can't be none!".

(** ['Graph with name `%s` doesnt exist for user `%s`!' % (name, self.client.username)] *)
Definition not_found_message (name : string) : string :=
  "Graph with name `" +:+ name +:+ "` doesnt exist for user `"
    +:+ username client +:+ "`!".

Definition post_graph (graph : Entity) : Op Graph :=
  let data := json graph in
  let data := <["owner_email" := JStr (username client)]> data in
  response ← call client (mkRequest POST GRAPHS_PATH (Some data) None);
  lift (APIResponse_graph response).

(** The [query] dictionary built by [get_graph] for a lookup by name. *)
Definition get_graph_query (name : string) (owner_email : option string)
  : gmap string JSON :=
  let query : gmap string JSON :=
    {[ "owner_email" :=
         JStr (match owner_email with
               | None => username client
               | Some owner_email => owner_email
               end);
       "names[]" := JStr name ]} in
  match owner_email with
  | Some owner_email =>
      if decide (owner_email ≠ username client)
      then <["is_public" := JInt 1]> query
      else query
  | None => query
  end.

Definition get_graph (name : option string) (graph_id : option Z)
    (owner_email : option string) : Op (option Graph) :=
  match graph_id with
  | Some graph_id =>
      let graph_by_id_path := GRAPHS_PATH +:+ str graph_id in
      response ← call client (mkRequest GET graph_by_id_path None None);
      graph ← lift (APIResponse_graph response);
      mret (Some graph)
  | None =>
      match name with
      | Some name =>
          let query := get_graph_query name owner_email in
          response ← call client (mkRequest GET GRAPHS_PATH None (Some query));
          total ← lift (py_get response "total" (JInt 0));
          positive ← lift (py_gt_zero total);
          if (positive : bool) then
            graphs ← lift (py_get response "graphs" JNull);
            first ← lift (py_first graphs);
            graph ← lift (APIResponse_graph first);
            mret (Some graph)
          else mret None
      | None => raise (Exception both_none_message)
      end
  end.

(** The [query] of the three listing methods, from its fixed filter entry. *)
Definition list_query (filter_key : string) (filter_value : JSON)
    (tags : option (list string)) (limit offset : Z) : gmap string JSON :=
  let query : gmap string JSON :=
    {[ filter_key := filter_value;
       "limit" := JInt limit;
       "offset" := JInt offset ]} in
  match tags with
  | Some tags => <["tags[]" := JList (JStr <$> tags)]> query
  | None => query
  end.

Definition get_public_graphs (tags : option (list string)) (limit offset : Z)
  : Op (list Graph) :=
  let query := list_query "is_public" (JInt 1) tags limit offset in
  response ← call client (mkRequest GET GRAPHS_PATH None (Some query));
  lift (APIResponse_graphs response).

Definition get_shared_graphs (tags : option (list string)) (limit offset : Z)
  : Op (list Graph) :=
  let query :=
    list_query "member_email" (JStr (username client)) tags limit offset in
  response ← call client (mkRequest GET GRAPHS_PATH None (Some query));
  lift (APIResponse_graphs response).

Definition get_my_graphs (tags : option (list string)) (limit offset : Z)
  : Op (list Graph) :=
  let query :=
    list_query "owner_email" (JStr (username client)) tags limit offset in
  response ← call client (mkRequest GET GRAPHS_PATH None (Some query));
  lift (APIResponse_graphs response).

Definition delete_graph (name : option string) (graph_id : option Z)
  : Op JSON :=
  match graph_id with
  | Some graph_id =>
      let graph_by_id_path := GRAPHS_PATH +:+ str graph_id in
      response ← call client (mkRequest DELETE graph_by_id_path None None);
      lift (py_getitem response "message")
  | None =>
      match name with
      | Some name =>
          graph ← get_graph (Some name) None None;
          match graph ≫= Graph_id with
          | None => raise (Exception (not_found_message name))
          | Some graph_id =>
              let graph_by_id_path := GRAPHS_PATH +:+ str graph_id in
              response ←
                call client (mkRequest DELETE graph_by_id_path None None);
              lift (py_getitem response "message")
          end
      | None => raise (Exception both_none_message)
      end
  end.

(** [owner_email] only reaches the lookup by name. *)
Definition update_graph (graph : Entity) (name : option string)
    (graph_id : option Z) (owner_email : option string) : Op Graph :=
  match graph_id with
  | Some graph_id =>
      let graph_by_id_path := GRAPHS_PATH +:+ str graph_id in
      response ←
        call client (mkRequest PUT graph_by_id_path (Some (json graph)) None);
      lift (APIResponse_graph response)
  | None =>
      match name with
      | Some name =>
          graph1 ← get_graph (Some name) None owner_email;
          match graph1 ≫= Graph_id with
          | None => raise (Exception (not_found_message name))
          | Some graph_id =>
              let graph_by_id_path := GRAPHS_PATH +:+ str graph_id in
              response ←
                call client
                  (mkRequest PUT graph_by_id_path (Some (json graph)) None);
              lift (APIResponse_graph response)
          end
      | None => raise (Exception both_none_message)
      end
  end.

Definition make_graph_public (name : option string) (graph_id : option Z)
  : Op Graph :=
  match graph_id with
  | Some graph_id =>
      let graph_by_id_path := GRAPHS_PATH +:+ str graph_id in
      response ←
        call client
          (mkRequest PUT graph_by_id_path (Some {[ "is_public" := JInt 1 ]}) None);
      lift (APIResponse_graph response)
  | None =>
      match name with
      | Some name =>
          graph ← get_graph (Some name) None None;
          match graph ≫= Graph_id with
          | None => raise (Exception (not_found_message name))
          | Some graph_id =>
              let graph_by_id_path := GRAPHS_PATH +:+ str graph_id in
              response ←
                call client
                  (mkRequest PUT graph_by_id_path
                     (Some {[ "is_public" := JInt 1 ]}) None);
              lift (APIResponse_graph response)
          end
      | None => raise (Exception both_none_message)
      end
  end.

Definition make_graph_private (name : option string) (graph_id : option Z)
  : Op Graph :=
  match graph_id with
  | Some graph_id =>
      let graph_by_id_path := GRAPHS_PATH +:+ str graph_id in
      response ←
        call client
          (mkRequest PUT graph_by_id_path (Some {[ "is_public" := JInt 0 ]}) None);
      lift (APIResponse_graph response)
  | None =>
      match name with
      | Some name =>
          graph ← get_graph (Some name) None None;
          match graph ≫= Graph_id with
          | None => raise (Exception (not_found_message name))
          | Some graph_id =>
              let graph_by_id_path := GRAPHS_PATH +:+ str graph_id in
              response ←
                call client
                  (mkRequest PUT graph_by_id_path
                     (Some {[ "is_public" := JInt 0 ]}) None);
              lift (APIResponse_graph response)
          end
      | None => raise (Exception both_none_message)
      end
  end.

(** ** The requests the methods make *)

(** The one request of a lookup by name. *)
Definition lookup_request (name : string) (owner_email : option string)
  : Request :=
  mkRequest GET GRAPHS_PATH None (Some (get_graph_query name owner_email)).

(** A request on the path of one graph: [GRAPHS_PATH + str(graph_id)]. *)
Definition by_id_request (m : Method) (graph_id : Z)
    (payload : option (gmap string JSON)) : Request :=
  mkRequest m (GRAPHS_PATH +:+ str graph_id) payload None.

(** What the transport answers to [req] in world [w]. *)
Definition answer (req : Request) (w : World) : PyExc + JSON :=
  (_make_request client req w).1.

(** The [id] of the graph a lookup by name resolved to: there is none when
    the lookup raised, found nothing, or found a graph whose [id] is [None]. *)
Definition resolved_id (found : PyExc + option Graph) : option Z :=
  match found with
  | inr (Some graph) => Graph_id graph
  | _ => None
  end.

(** The calls of a method that resolves a name first: the lookup, and the
    main call when the name resolved. *)
Definition calls_by_name (found : PyExc + option Graph) : nat :=
  match resolved_id found with
  | Some _ => 2
  | None => 1
  end.

(** A listing method sends one query, holding its filter entry and [limit]
    and [offset] as given, and returns the graphs of the answer as the
    envelope unwraps them. *)
Definition lists_with
    (get_graphs : option (list string) → Z → Z → Op (list Graph))
    (filter_key : string) (filter_value : JSON) : Prop :=
  ∀ (tags : option (list string)) (limit offset : Z) (w : World),
  ∃ query : gmap string JSON,
    requests (get_graphs tags limit offset w) =
      [mkRequest GET GRAPHS_PATH None (Some query)] ∧
    query !! filter_key = Some filter_value ∧
    query !! "limit" = Some (JInt limit) ∧
    query !! "offset" = Some (JInt offset) ∧
    result (get_graphs tags limit offset w) =
      match answer (mkRequest GET GRAPHS_PATH None (Some query)) w with
      | inl e => inl e
      | inr response => APIResponse_graphs response
      end.

End Methods.
End Graphs.

(** ** A scripted transport

    A test double for [client._make_request]: the world is the queue of
    answers still to be given; each call consumes the next one, whatever the
    request. *)
Module Scripted.

Definition World : Type := list (PyExc + JSON).

Definition _make_request (req : Request) (w : World)
  : (PyExc + JSON) * World :=
  match w with
  | answer :: rest => (answer, rest)
  | [] => (inl (GraphSpaceError "no answer scripted"), [])
  end.

Definition client (username : string) : Client World :=
  mkClient username _make_request.

End Scripted.

(** ** The response envelope of the specification *)
Module Envelope.

(** Modelled from the spec: the [Graph] domain object ([graphspace_python]'s
    own class, not among the sources) is "a local representation
    constructed from a JSON response"; its [id] is the numeric [id]
    attribute of that representation. *)
Record Graph : Type := mkGraph { attributes : gmap string JSON }.

Definition Graph_id (graph : Graph) : option Z :=
  match attributes graph !! "id" with
  | Some (JInt n) => Some n
  | _ => None
  end.

Definition as_graph (entity : JSON) : PyExc + Graph :=
  match entity with
  | JObj d => inr (mkGraph d)
  | _ => inl TypeError
  end.

Fixpoint as_graphs (entities : list JSON) : PyExc + list Graph :=
  match entities with
  | [] => inr []
  | entity :: entities =>
      match as_graph entity with
      | inl e => inl e
      | inr graph =>
          match as_graphs entities with
          | inl e => inl e
          | inr graphs => inr (graph :: graphs)
          end
      end
  end.

(** Modelled from the spec: [APIResponse] (module
    [graphspace_python.api.obj.api_response], not among the sources) is "a
    wrapper that extracts either a single entity (key "graph") or a list of
    entities (key "graphs") plus a total count, from a raw JSON-decoded
    response"; this is the single entity. *)
Definition APIResponse_graph (response : JSON) : PyExc + Graph :=
  match py_getitem response "graph" with
  | inl e => inl e
  | inr entity => as_graph entity
  end.

(** Modelled from the spec: the list of entities of the same [APIResponse]
    wrapper, the array under the key "graphs" of a collection response
    [{graphs: array, total: integer}]. *)
Definition APIResponse_graphs (response : JSON) : PyExc + list Graph :=
  match py_getitem response "graphs" with
  | inl e => inl e
  | inr (JList entities) => as_graphs entities
  | inr _ => inl TypeError
  end.

(** An entity to post or put is given by its serialization [graph.json()]. *)
#[export] Instance model : ObjectModel :=
  Build_ObjectModel (gmap string JSON) (λ graph, graph)
    Graph Graph_id APIResponse_graph APIResponse_graphs.

End Envelope.

(** ** Sample runs

    The caller of the docstrings, and a few scripted conversations. *)
Module Sample.

Definition GRAPHS_PATH : string := "/graphs/".

Definition client : Client Scripted.World :=
  Scripted.client "user1@example.com".

(** A graph entity as the service lists it. *)
Definition entity (n : Z) (name : string) : JSON :=
  JObj {[ "id" := JInt n; "name" := JStr name; "is_public" := JInt 0 ]}.

(** The lookup finds nothing. *)
Definition no_match : Scripted.World :=
  [ inr (JObj {[ "total" := JInt 0; "graphs" := JList [] ]}) ].

(** The lookup finds one graph, wrapped the way the envelope unwraps a single
    entity; the second answer confirms a deletion. *)
Definition one_match : Scripted.World :=
  [ inr (JObj {[ "total" := JInt 1;
                 "graphs" :=
                   JList [ JObj {[ "graph" := entity 65930 "My Sample Graph" ]} ] ]});
    inr (JObj {[ "message" := JStr "Successfully deleted graph with id=65930" ]}) ].

(** An answer with neither [total] nor [graphs]. *)
Definition no_total : Scripted.World :=
  [ inr (JObj {[ "message" := JStr "nothing to see" ]}) ].

(** The same answer with a [graphs] entry that is no list. *)
Definition no_total_but_graphs : Scripted.World :=
  [ inr (JObj (<["graphs" := JStr "not a list"]>
                 {[ "message" := JStr "nothing to see" ]})) ].

(** The service lists two graphs, whatever [limit] was asked for. *)
Definition two_listed : Scripted.World :=
  [ inr (JObj {[ "total" := JInt 2;
                 "graphs" := JList [ entity 1 "first"; entity 2 "second" ] ]}) ].

(** The payloads of the two visibility changes, as entities. *)
Definition public_payload : @Entity Envelope.model :=
  ({[ "is_public" := JInt 1 ]} : gmap string JSON).

Definition private_payload : @Entity Envelope.model :=
  ({[ "is_public" := JInt 0 ]} : gmap string JSON).

End Sample.

(** ** Outcomes of a run *)

Section Outcomes.
Context {World A : Type}.

(** The method raises [e] from world [w], having made a single request. *)
Definition raises_after_one_call (m : M World A) (e : PyExc) (w : World) : Prop :=
  result (m w) = inl e ∧ n_calls m w = 1%nat.

(** The method makes requests of the [allowed] HTTP methods only. *)
Definition only_uses (allowed : list Method) (m : M World A) : Prop :=
  ∀ w : World, Forall (λ req, method req ∈ allowed) (requests (m w)).

End Outcomes.

(** How a listing method sends [tags]: under ['tags[]'], unchanged and in
    order, when they are given (an empty list included), and not at all when
    they are [None]; the query has no key beside its filter entry,
    ['limit'], ['offset'] and ['tags[]']. *)
Definition sends_tags {World : Type} {objects : ObjectModel}
    (GRAPHS_PATH : string)
    (get_graphs : option (list string) → Z → Z → M World (list Graph))
    (filter_key : string) : Prop :=
  ∀ (tags : option (list string)) (limit offset : Z) (w : World),
  ∃ query : gmap string JSON,
    requests (get_graphs tags limit offset w) =
      [mkRequest GET GRAPHS_PATH None (Some query)] ∧
    query !! "tags[]" = (λ given : list string, JList (JStr <$> given)) <$> tags ∧
    ∀ key : string,
      key ≠ filter_key → key ≠ "limit" → key ≠ "offset" → key ≠ "tags[]" →
      query !! key = None.

(** ** Edge runs

    Scripted conversations in which the service fails or answers oddly. *)
Module Edge.

(** The transport raises on the first call. *)
Definition unavailable : PyExc := GraphSpaceError "503 Service Unavailable".

Definition transport_down : Scripted.World := [ inl unavailable ].

(** The lookup finds a graph that carries no [id]. *)
Definition anonymous : gmap string JSON :=
  {[ "name" := JStr "My Sample Graph" ]}.

Definition match_without_id : Scripted.World :=
  [ inr (JObj {[ "total" := JInt 1;
                 "graphs" := JList [ JObj {[ "graph" := JObj anonymous ]} ] ]}) ].

(** A positive [total] with no [graphs] entry, and with an empty one. *)
Definition total_only : gmap string JSON := {[ "total" := JInt 1 ]}.

Definition total_and_nothing : gmap string JSON :=
  {[ "total" := JInt 1; "graphs" := JList [] ]}.

(** A deletion confirmed with a message, and one confirmed without. *)
Definition confirmation : gmap string JSON :=
  {[ "message" := JStr "Successfully deleted graph with id=65930" ]}.

(** A graph to post that names another owner, and the same graph naming
    none. *)
Definition unowned : @Entity Envelope.model :=
  ({[ "name" := JStr "My Sample Graph" ]} : gmap string JSON).

Definition owned_by_another : @Entity Envelope.model :=
  (<["owner_email" := JStr "user2@example.com"]>
     ({[ "name" := JStr "My Sample Graph" ]} : gmap string JSON)
   : gmap string JSON).

End Edge.

(** * Properties of the endpoint *)

(** ** Running a method step by step *)

Section Steps.
Context {World : Type}.

Lemma result_bind {A B} (m : M World A) (k : A → M World B) (w : World) :
  result ((m ≫= k) w) =
    match result (m w) with
    | inl e => inl e
    | inr a => result (k a (world (m w)))
    end.
Proof. unfold mbind, M_bind. cbn. by destruct (result (m w)). Qed.

Lemma requests_bind {A B} (m : M World A) (k : A → M World B) (w : World) :
  requests ((m ≫= k) w) =
    requests (m w) ++
      match result (m w) with
      | inl e => []
      | inr a => requests (k a (world (m w)))
      end.
Proof.
  unfold mbind, M_bind. cbn.
  destruct (result (m w)); cbn; [by rewrite app_nil_r | done].
Qed.

(** A step that calls nothing leaves the record of requests alone. *)
Lemma lift_bind {A B} (x : PyExc + A) (k : A → M World B) (w : World) :
  (lift x ≫= k) w =
    match x with
    | inl e => mkRun (inl e) w []
    | inr a => k a w
    end.
Proof.
  unfold mbind, M_bind, lift. cbn.
  destruct x; [done |]. by destruct (k a w).
Qed.

Lemma call_result (client : Client World) (req : Request) (w : World) :
  result (call client req w) = (_make_request client req w).1.
Proof. unfold call. by destruct (_make_request client req w). Qed.

Lemma call_requests (client : Client World) (req : Request) (w : World) :
  requests (call client req w) = [req].
Proof. unfold call. by destruct (_make_request client req w). Qed.

(** A call followed by steps that call nothing has made exactly that call. *)
Lemma call_then_requests {A} (client : Client World) (req : Request)
    (k : JSON → M World A) (w : World) :
  (∀ response w', requests (k response w') = []) →
  requests ((call client req ≫= k) w) = [req].
Proof.
  intros Hk. rewrite requests_bind, call_requests.
  destruct (result (call client req w)); [done |]. by rewrite Hk.
Qed.

End Steps.

(** ** The requests each method makes *)

Section Facts.
Import Graphs.
Context {World : Type} {objects : ObjectModel}.
Variable GRAPHS_PATH : string.
Variable client : Client World.

#[local] Abbreviation get_graph := (Graphs.get_graph GRAPHS_PATH client).
#[local] Abbreviation delete_graph := (Graphs.delete_graph GRAPHS_PATH client).
#[local] Abbreviation update_graph := (Graphs.update_graph GRAPHS_PATH client).
#[local] Abbreviation make_graph_public := (Graphs.make_graph_public GRAPHS_PATH client).
#[local] Abbreviation make_graph_private := (Graphs.make_graph_private GRAPHS_PATH client).
#[local] Abbreviation post_graph := (Graphs.post_graph GRAPHS_PATH client).
#[local] Abbreviation get_public_graphs := (Graphs.get_public_graphs GRAPHS_PATH client).
#[local] Abbreviation get_shared_graphs := (Graphs.get_shared_graphs GRAPHS_PATH client).
#[local] Abbreviation get_my_graphs := (Graphs.get_my_graphs GRAPHS_PATH client).
#[local] Abbreviation lookup_request := (Graphs.lookup_request GRAPHS_PATH client).
#[local] Abbreviation by_id_request := (Graphs.by_id_request GRAPHS_PATH).
#[local] Abbreviation answer := (Graphs.answer client).
#[local] Abbreviation lists_with := (Graphs.lists_with GRAPHS_PATH client).

Lemma get_graph_by_name_requests name owner_email w :
  requests (get_graph (Some name) None owner_email w) =
    [lookup_request name owner_email].
Proof.
  unfold Graphs.get_graph. apply call_then_requests. intros response w'.
  rewrite lift_bind. destruct (py_get _ _ _) as [e | total]; [done |].
  rewrite lift_bind. destruct (py_gt_zero total) as [e | [|]]; [done | | done].
  rewrite lift_bind. destruct (py_get _ _ _) as [e | graphs]; [done |].
  rewrite lift_bind. destruct (py_first graphs) as [e | first]; [done |].
  rewrite lift_bind. by destruct (APIResponse_graph first).
Qed.

Lemma get_graph_by_id_requests name graph_id owner_email w :
  requests (get_graph name (Some graph_id) owner_email w) =
    [by_id_request GET graph_id None].
Proof.
  unfold Graphs.get_graph. apply call_then_requests. intros response w'.
  rewrite lift_bind. by destruct (APIResponse_graph response).
Qed.

(** The requests of a call and the unwrapping of its answer. *)
Lemma call_lift_requests {A} (req : Request) (f : JSON → PyExc + A) w :
  requests ((response ← call client req; lift (f response)) w) = [req].
Proof. by apply call_then_requests. Qed.

Lemma call_lift_result {A} (req : Request) (f : JSON → PyExc + A) w :
  result ((response ← call client req; lift (f response)) w) =
    match answer req w with
    | inl e => inl e
    | inr response => f response
    end.
Proof. by rewrite result_bind, call_result. Qed.

(** What follows the lookup in the methods that resolve a name first. *)
Lemma resolved_requests {A} name owner_email (k : Z → M World A)
    (req : Z → Request) w :
  (∀ graph_id w', requests (k graph_id w') = [req graph_id]) →
  requests ((graph ← get_graph (Some name) None owner_email;
             match graph ≫= Graph_id with
             | None => raise (Exception (not_found_message client name))
             | Some graph_id => k graph_id
             end) w) =
    lookup_request name owner_email ::
      match resolved_id (result (get_graph (Some name) None owner_email w)) with
      | Some graph_id => [req graph_id]
      | None => []
      end.
Proof.
  intros Hk. rewrite requests_bind, get_graph_by_name_requests. cbn. f_equal.
  destruct (result _) as [e | [graph |]]; cbn; [done | | done].
  destruct (Graph_id graph); [apply Hk | done].
Qed.

Lemma delete_graph_by_name_requests name w :
  requests (delete_graph (Some name) None w) =
    lookup_request name None ::
      match resolved_id (result (get_graph (Some name) None None w)) with
      | Some graph_id => [by_id_request DELETE graph_id None]
      | None => []
      end.
Proof.
  unfold Graphs.delete_graph.
  apply (resolved_requests name None _ (λ i, by_id_request DELETE i None)).
  intros. apply call_lift_requests.
Qed.

Lemma update_graph_by_name_requests graph name owner_email w :
  requests (update_graph graph (Some name) None owner_email w) =
    lookup_request name owner_email ::
      match resolved_id (result (get_graph (Some name) None owner_email w)) with
      | Some graph_id => [by_id_request PUT graph_id (Some (json graph))]
      | None => []
      end.
Proof.
  unfold Graphs.update_graph.
  apply (resolved_requests name owner_email _
           (λ i, by_id_request PUT i (Some (json graph)))).
  intros. apply call_lift_requests.
Qed.

Lemma make_graph_public_by_name_requests name w :
  requests (make_graph_public (Some name) None w) =
    lookup_request name None ::
      match resolved_id (result (get_graph (Some name) None None w)) with
      | Some graph_id =>
          [by_id_request PUT graph_id (Some {[ "is_public" := JInt 1 ]})]
      | None => []
      end.
Proof.
  unfold Graphs.make_graph_public.
  apply (resolved_requests name None _
           (λ i, by_id_request PUT i (Some {[ "is_public" := JInt 1 ]}))).
  intros. apply call_lift_requests.
Qed.

Lemma make_graph_private_by_name_requests name w :
  requests (make_graph_private (Some name) None w) =
    lookup_request name None ::
      match resolved_id (result (get_graph (Some name) None None w)) with
      | Some graph_id =>
          [by_id_request PUT graph_id (Some {[ "is_public" := JInt 0 ]})]
      | None => []
      end.
Proof.
  unfold Graphs.make_graph_private.
  apply (resolved_requests name None _
           (λ i, by_id_request PUT i (Some {[ "is_public" := JInt 0 ]}))).
  intros. apply call_lift_requests.
Qed.

(** C1 (as amended): the number of calls to [_make_request] of every method.
    [post_graph], the three listing methods, [get_graph] (by id and by name
    alike) and the id-based [delete_graph], [update_graph],
    [make_graph_public] and [make_graph_private] make exactly one call. The
    name-based [delete_graph], [update_graph], [make_graph_public] and
    [make_graph_private] make the lookup, and then the main call only when
    the lookup returned a graph with an [id]: two calls then, one otherwise.
    With neither name nor id no call is made. *)
Theorem C1_transport_calls :
  (∀ graph w, n_calls (post_graph graph) w = 1%nat) ∧
  (∀ tags limit offset w,
     n_calls (get_public_graphs tags limit offset) w = 1%nat ∧
     n_calls (get_shared_graphs tags limit offset) w = 1%nat ∧
     n_calls (get_my_graphs tags limit offset) w = 1%nat) ∧
  (∀ name graph_id owner_email w,
     n_calls (get_graph name (Some graph_id) owner_email) w = 1%nat) ∧
  (∀ name owner_email w,
     n_calls (get_graph (Some name) None owner_email) w = 1%nat) ∧
  (∀ graph name graph_id owner_email w,
     n_calls (delete_graph name (Some graph_id)) w = 1%nat ∧
     n_calls (update_graph graph name (Some graph_id) owner_email) w = 1%nat ∧
     n_calls (make_graph_public name (Some graph_id)) w = 1%nat ∧
     n_calls (make_graph_private name (Some graph_id)) w = 1%nat) ∧
  (∀ graph name owner_email w,
     n_calls (delete_graph (Some name) None) w =
       calls_by_name (result (get_graph (Some name) None None w)) ∧
     n_calls (update_graph graph (Some name) None owner_email) w =
       calls_by_name (result (get_graph (Some name) None owner_email w)) ∧
     n_calls (make_graph_public (Some name) None) w =
       calls_by_name (result (get_graph (Some name) None None w)) ∧
     n_calls (make_graph_private (Some name) None) w =
       calls_by_name (result (get_graph (Some name) None None w))) ∧
  (∀ graph owner_email w,
     n_calls (get_graph None None owner_email) w = 0%nat ∧
     n_calls (delete_graph None None) w = 0%nat ∧
     n_calls (update_graph graph None None owner_email) w = 0%nat ∧
     n_calls (make_graph_public None None) w = 0%nat ∧
     n_calls (make_graph_private None None) w = 0%nat).
Proof.
  unfold n_calls, calls_by_name.
  split; [| split; [| split; [| split; [| split; [| split]]]]]; [.. | done].
  - intros graph w. apply (f_equal length (call_lift_requests _ _ w)).
  - intros tags limit offset w.
    split_and!; apply (f_equal length (call_lift_requests _ _ w)).
  - intros. by rewrite get_graph_by_id_requests.
  - intros. by rewrite get_graph_by_name_requests.
  - intros graph name graph_id owner_email w.
    split_and!; apply (f_equal length (call_lift_requests _ _ w)).
  - intros graph name owner_email w. split_and!.
    + rewrite delete_graph_by_name_requests. by destruct (resolved_id _).
    + rewrite update_graph_by_name_requests. by destruct (resolved_id _).
    + rewrite make_graph_public_by_name_requests. by destruct (resolved_id _).
    + rewrite make_graph_private_by_name_requests. by destruct (resolved_id _).
Qed.

(** C2: with both [name] and [graph_id] equal to [None], each of [get_graph],
    [delete_graph], [update_graph], [make_graph_public] and
    [make_graph_private] raises [Exception('Both graph_id and name can't be
    none!')], has made no request, and has left the world as it was. *)
Theorem C2_no_identifier_fails_before_any_request :
  ∀ (graph : Entity) (owner_email : option string) (w : World),
    get_graph None None owner_email w =
      mkRun (inl (Exception both_none_message)) w [] ∧
    delete_graph None None w =
      mkRun (inl (Exception both_none_message)) w [] ∧
    update_graph graph None None owner_email w =
      mkRun (inl (Exception both_none_message)) w [] ∧
    make_graph_public None None w =
      mkRun (inl (Exception both_none_message)) w [] ∧
    make_graph_private None None w =
      mkRun (inl (Exception both_none_message)) w [].
Proof. intros. by split_and!. Qed.

Lemma get_graph_query_names name owner_email :
  get_graph_query client name owner_email !! "names[]" = Some (JStr name).
Proof.
  unfold get_graph_query.
  destruct owner_email as [o |]; [case_decide |]; by simplify_map_eq.
Qed.

Lemma get_graph_query_owner_email name owner_email :
  get_graph_query client name owner_email !! "owner_email" =
    Some (JStr (default (username client) owner_email)).
Proof.
  unfold get_graph_query.
  destruct owner_email as [o |]; [case_decide |]; by simplify_map_eq.
Qed.

Lemma get_graph_query_is_public name owner_email :
  get_graph_query client name owner_email !! "is_public" =
    match owner_email with
    | Some o => if decide (o = username client) then None else Some (JInt 1)
    | None => None
    end.
Proof.
  unfold get_graph_query.
  destruct owner_email as [o |]; [| by simplify_map_eq].
  repeat case_decide; try done; by simplify_map_eq.
Qed.

Lemma get_graph_query_other name owner_email key :
  key ≠ "names[]" → key ≠ "owner_email" → key ≠ "is_public" →
  get_graph_query client name owner_email !! key = None.
Proof.
  intros. unfold get_graph_query.
  destruct owner_email as [o |]; [case_decide |];
    rewrite ?lookup_insert_ne by done; by apply lookup_singleton_ne.
Qed.

Lemma get_graph_query_is_public_iff name owner_email :
  (get_graph_query client name owner_email !! "is_public" = Some (JInt 1) ↔
     ∃ given, owner_email = Some given ∧ given ≠ username client) ∧
  (get_graph_query client name owner_email !! "is_public" = None ↔
     ¬ ∃ given, owner_email = Some given ∧ given ≠ username client).
Proof.
  rewrite get_graph_query_is_public.
  destruct owner_email as [o |]; [case_decide |].
  - subst o. split; split; try done.
    + by intros (given & [= ->] & Hne).
    + by intros _ (given & [= ->] & Hne).
  - split; split; try done.
    + by exists o.
    + intros Hnot. destruct Hnot. by exists o.
  - split; split; try done.
    + by intros (given & [=] & _).
    + by intros _ (given & [=] & _).
Qed.

(** C3: [get_graph(name=name, owner_email=owner_email)] makes one [GET] on
    [GRAPHS_PATH] whose query maps ['names[]'] to [name] and ['owner_email']
    to [owner_email] when it is given and to [client.username] otherwise;
    the query maps ['is_public'] to [1] exactly when [owner_email] is given
    and differs from [client.username], and has no ['is_public'] otherwise;
    it has no other key. *)
Theorem C3_lookup_by_name_query :
  ∀ (name : string) (owner_email : option string) (w : World),
  ∃ query : gmap string JSON,
    requests (get_graph (Some name) None owner_email w) =
      [mkRequest GET GRAPHS_PATH None (Some query)] ∧
    query !! "names[]" = Some (JStr name) ∧
    query !! "owner_email" =
      Some (JStr (match owner_email with
                  | Some given => given
                  | None => username client
                  end)) ∧
    (query !! "is_public" = Some (JInt 1) ↔
       ∃ given, owner_email = Some given ∧ given ≠ username client) ∧
    (query !! "is_public" = None ↔
       ¬ ∃ given, owner_email = Some given ∧ given ≠ username client) ∧
    (∀ key : string,
       key ≠ "names[]" → key ≠ "owner_email" → key ≠ "is_public" →
       query !! key = None).
Proof.
  intros name owner_email w. exists (get_graph_query client name owner_email).
  split; [apply get_graph_by_name_requests |].
  split; [apply get_graph_query_names |].
  split; [rewrite get_graph_query_owner_email; by destruct owner_email |].
  pose proof (get_graph_query_is_public_iff name owner_email) as [Hone Hnone].
  split_and!; [done | done | apply get_graph_query_other].
Qed.

(** The answer to a lookup by name decides its result. *)
Lemma get_graph_by_name_result name owner_email w :
  result (get_graph (Some name) None owner_email w) =
    match answer (lookup_request name owner_email) w with
    | inl e => inl e
    | inr response =>
        match py_get response "total" (JInt 0) with
        | inl e => inl e
        | inr total =>
            match py_gt_zero total with
            | inl e => inl e
            | inr true =>
                match py_get response "graphs" JNull with
                | inl e => inl e
                | inr graphs =>
                    match py_first graphs with
                    | inl e => inl e
                    | inr first =>
                        match APIResponse_graph first with
                        | inl e => inl e
                        | inr graph => inr (Some graph)
                        end
                    end
                end
            | inr false => inr None
            end
        end
    end.
Proof.
  unfold Graphs.get_graph. rewrite result_bind, call_result.
  unfold Graphs.answer, Graphs.lookup_request.
  destruct (_make_request _ _ w).1 as [e | response]; [done |].
  rewrite lift_bind. destruct (py_get _ _ _) as [e | total]; [done |].
  rewrite lift_bind. destruct (py_gt_zero total) as [e | [|]]; [done | | done].
  rewrite lift_bind. destruct (py_get _ _ _) as [e | graphs]; [done |].
  rewrite lift_bind. destruct (py_first graphs) as [e | first]; [done |].
  rewrite lift_bind. by destruct (APIResponse_graph first).
Qed.

(** C4: when the transport answers the lookup by name with a dictionary whose
    [total] is [0], [get_graph] returns [None] and raises nothing; when
    [total] is greater than [0], it returns the first element of the
    answer's [graphs] list, wrapped as a [Graph] by [APIResponse]. *)
Theorem C4_lookup_by_name_result (name : string) (owner_email : option string)
    (w : World) (response : gmap string JSON) :
  answer (lookup_request name owner_email) w = inr (JObj response) →
  (response !! "total" = Some (JInt 0) →
   result (get_graph (Some name) None owner_email w) = inr None) ∧
  (∀ (total : Z) (first : JSON) (others : list JSON),
     response !! "total" = Some (JInt total) →
     0 < total →
     response !! "graphs" = Some (JList (first :: others)) →
     result (get_graph (Some name) None owner_email w) =
       match APIResponse_graph first with
       | inl e => inl e
       | inr graph => inr (Some graph)
       end).
Proof.
  intros Hanswer. rewrite get_graph_by_name_result, Hanswer. cbn. split.
  - by intros ->.
  - intros total first others -> Hpos ->. cbn.
    by rewrite (proj2 (Z.ltb_lt 0 total) Hpos).
Qed.

Lemma append_assoc (s1 s2 s3 : string) :
  (s1 +:+ s2) +:+ s3 = s1 +:+ s2 +:+ s3.
Proof.
  induction s1 as [| a s1 IH]; [done |].
  change (String a ((s1 +:+ s2) +:+ s3) = String a (s1 +:+ s2 +:+ s3)).
  by rewrite IH.
Qed.

Lemma contains_intro (before needle after : string) :
  contains needle (before +:+ needle +:+ after).
Proof. by exists before, after. Qed.

Lemma not_found_message_contains name :
  contains name (not_found_message client name) ∧
  contains (username client) (not_found_message client name).
Proof.
  unfold not_found_message. split.
  - apply contains_intro.
  - exists ("Graph with name `" +:+ name +:+ "` doesnt exist for user `"), "`!".
    by rewrite !append_assoc.
Qed.

(** C5: when the lookup of [delete_graph(name=name)] returns [None],
    [delete_graph] raises an [Exception] whose message contains both [name]
    and [client.username], and its only request is the lookup: no [DELETE]
    is made. *)
Theorem C5_delete_by_name_not_found (name : string) (w : World) :
  result (get_graph (Some name) None None w) = inr None →
  result (delete_graph (Some name) None w) =
    inl (Exception (not_found_message client name)) ∧
  contains name (not_found_message client name) ∧
  contains (username client) (not_found_message client name) ∧
  requests (delete_graph (Some name) None w) = [lookup_request name None] ∧
  Forall (λ req, method req ≠ DELETE) (requests (delete_graph (Some name) None w)).
Proof.
  intros Hnone.
  assert (requests (delete_graph (Some name) None w) = [lookup_request name None])
    as Hreqs by (by rewrite delete_graph_by_name_requests, Hnone).
  split_and!.
  - unfold Graphs.delete_graph. by rewrite result_bind, Hnone.
  - apply not_found_message_contains.
  - apply not_found_message_contains.
  - done.
  - rewrite Hreqs. by repeat constructor.
Qed.

Lemma list_query_limit_offset filter_key filter_value tags limit offset :
  filter_key ≠ "limit" → filter_key ≠ "offset" →
  list_query filter_key filter_value tags limit offset !! "limit" =
    Some (JInt limit) ∧
  list_query filter_key filter_value tags limit offset !! "offset" =
    Some (JInt offset).
Proof.
  intros Hlimit Hoffset. unfold list_query.
  destruct tags as [tags |]; split.
  - rewrite !lookup_insert_ne by done. apply lookup_insert_eq.
  - rewrite !lookup_insert_ne by done. apply lookup_singleton_eq.
  - rewrite lookup_insert_ne by done. apply lookup_insert_eq.
  - rewrite !lookup_insert_ne by done. apply lookup_singleton_eq.
Qed.

Lemma list_query_filter filter_key filter_value tags limit offset :
  filter_key ≠ "tags[]" →
  list_query filter_key filter_value tags limit offset !! filter_key =
    Some filter_value.
Proof.
  intros Htags. unfold list_query.
  destruct tags as [tags |]; rewrite ?lookup_insert_ne by done;
    apply lookup_insert_eq.
Qed.

(** C6 (as amended): each of [get_public_graphs], [get_shared_graphs] and
    [get_my_graphs] makes one [GET] whose query holds [limit] and [offset]
    unchanged under the keys ['limit'] and ['offset'], beside the method's
    own filter entry; what it returns is the list [APIResponse] unwraps from
    the transport's answer, whatever its length. *)
Theorem C6_list_query_limit_offset :
  lists_with get_public_graphs "is_public" (JInt 1) ∧
  lists_with get_shared_graphs "member_email" (JStr (username client)) ∧
  lists_with get_my_graphs "owner_email" (JStr (username client)).
Proof.
  split_and!; intros tags limit offset w; eexists;
    (split; [apply call_lift_requests |]);
    (split; [by apply list_query_filter |]);
    (split; [by apply list_query_limit_offset |]);
    (split; [by apply list_query_limit_offset |]);
    apply call_lift_result.
Qed.

(** C7: for every [name], [graph_id] and world, [make_graph_public] runs
    exactly as [update_graph] does, with the same [name] and [graph_id], on
    an entity whose [json()] is [{'is_public': 1}], and [make_graph_private]
    exactly as [update_graph] on one whose [json()] is [{'is_public': 0}]:
    same result, same requests in the same order, same final world. *)
Theorem C7_set_visibility_is_update (public private : Entity) :
  json public = {[ "is_public" := JInt 1 ]} →
  json private = {[ "is_public" := JInt 0 ]} →
  ∀ (name : option string) (graph_id : option Z) (w : World),
    make_graph_public name graph_id w =
      update_graph public name graph_id None w ∧
    make_graph_private name graph_id w =
      update_graph private name graph_id None w.
Proof.
  intros Hpublic Hprivate name graph_id w.
  unfold Graphs.make_graph_public, Graphs.make_graph_private,
    Graphs.update_graph.
  by rewrite Hpublic, Hprivate.
Qed.

(** C8: when both [name] and [graph_id] are given, each of [get_graph],
    [delete_graph], [update_graph], [make_graph_public] and
    [make_graph_private] runs exactly as with [graph_id] alone, and makes a
    single request, on the path [GRAPHS_PATH + str(graph_id)]: there is no
    lookup by name. *)
Theorem C8_id_takes_precedence :
  ∀ (name : string) (graph_id : Z) (owner_email : option string)
    (graph : Entity) (w : World),
    (get_graph (Some name) (Some graph_id) owner_email w =
       get_graph None (Some graph_id) None w ∧
     requests (get_graph (Some name) (Some graph_id) owner_email w) =
       [mkRequest GET (GRAPHS_PATH +:+ str graph_id) None None]) ∧
    (delete_graph (Some name) (Some graph_id) w =
       delete_graph None (Some graph_id) w ∧
     requests (delete_graph (Some name) (Some graph_id) w) =
       [mkRequest DELETE (GRAPHS_PATH +:+ str graph_id) None None]) ∧
    (update_graph graph (Some name) (Some graph_id) owner_email w =
       update_graph graph None (Some graph_id) None w ∧
     requests (update_graph graph (Some name) (Some graph_id) owner_email w) =
       [mkRequest PUT (GRAPHS_PATH +:+ str graph_id) (Some (json graph)) None]) ∧
    (make_graph_public (Some name) (Some graph_id) w =
       make_graph_public None (Some graph_id) w ∧
     requests (make_graph_public (Some name) (Some graph_id) w) =
       [mkRequest PUT (GRAPHS_PATH +:+ str graph_id)
          (Some {[ "is_public" := JInt 1 ]}) None]) ∧
    (make_graph_private (Some name) (Some graph_id) w =
       make_graph_private None (Some graph_id) w ∧
     requests (make_graph_private (Some name) (Some graph_id) w) =
       [mkRequest PUT (GRAPHS_PATH +:+ str graph_id)
          (Some {[ "is_public" := JInt 0 ]}) None]).
Proof.
  intros. split_and!; try done.
  - apply get_graph_by_id_requests.
  - apply call_lift_requests.
  - apply call_lift_requests.
  - apply call_lift_requests.
  - apply call_lift_requests.
Qed.

(** C9: [post_graph(graph)] makes one [POST] on [GRAPHS_PATH] whose payload
    maps ['owner_email'] to [client.username], whatever [graph.json()] held
    under that key, and agrees with [graph.json()] on every other key. *)
Theorem C9_post_graph_payload :
  ∀ (graph : Entity) (w : World),
  ∃ payload : gmap string JSON,
    requests (post_graph graph w) =
      [mkRequest POST GRAPHS_PATH (Some payload) None] ∧
    payload !! "owner_email" = Some (JStr (username client)) ∧
    ∀ key : string, key ≠ "owner_email" → payload !! key = json graph !! key.
Proof.
  intros graph w. eexists. split; [apply call_lift_requests |]. split.
  - apply lookup_insert_eq.
  - intros key Hkey. by apply lookup_insert_ne.
Qed.

(** C10: when the answer to the lookup by name has no [total] key,
    [get_graph] returns [None] and raises nothing; and whenever [total]
    (read as [0] when missing) is not greater than [0], the result does not
    depend on the [graphs] entry of the answer: two answers that differ at
    most there give the same result. *)
Theorem C10_lookup_without_total (name : string) (owner_email : option string)
    (w w' : World) (response response' : gmap string JSON) :
  answer (lookup_request name owner_email) w = inr (JObj response) →
  answer (lookup_request name owner_email) w' = inr (JObj response') →
  (∀ key : string, key ≠ "graphs" → response' !! key = response !! key) →
  (response !! "total" = None →
   result (get_graph (Some name) None owner_email w) = inr None) ∧
  (py_gt_zero (default (JInt 0) (response !! "total")) ≠ inr true →
   result (get_graph (Some name) None owner_email w') =
     result (get_graph (Some name) None owner_email w)).
Proof.
  intros Hanswer Hanswer' Hsame.
  rewrite !get_graph_by_name_result, Hanswer, Hanswer'. cbn.
  rewrite (Hsame "total") by done. split.
  - by intros ->.
  - intros Hnot. by destruct (py_gt_zero _) as [e | [|]].
Qed.
End Facts.

(** ** The sample runs *)

Section Samples.
Import Graphs.

#[local] Existing Instance Envelope.model.

#[local] Abbreviation get_graph :=
  (Graphs.get_graph Sample.GRAPHS_PATH Sample.client).
#[local] Abbreviation delete_graph :=
  (Graphs.delete_graph Sample.GRAPHS_PATH Sample.client).
#[local] Abbreviation update_graph :=
  (Graphs.update_graph Sample.GRAPHS_PATH Sample.client).
#[local] Abbreviation make_graph_public :=
  (Graphs.make_graph_public Sample.GRAPHS_PATH Sample.client).
#[local] Abbreviation make_graph_private :=
  (Graphs.make_graph_private Sample.GRAPHS_PATH Sample.client).
#[local] Abbreviation get_public_graphs :=
  (Graphs.get_public_graphs Sample.GRAPHS_PATH Sample.client).
#[local] Abbreviation lookup_request :=
  (Graphs.lookup_request Sample.GRAPHS_PATH Sample.client).

(** Deleting by name a graph that exists: the lookup, then the [DELETE] on
    the path of the graph found. *)
Example delete_by_name_found :
  requests (delete_graph (Some "My Sample Graph") None Sample.one_match) =
    [ lookup_request "My Sample Graph" None;
      mkRequest DELETE "/graphs/65930" None None ] ∧
  result (delete_graph (Some "My Sample Graph") None Sample.one_match) =
    inr (JStr "Successfully deleted graph with id=65930").
Proof. split; reflexivity. Qed.

(** A lookup by name is a single call, found or not. *)
Example get_graph_by_name_one_call :
  n_calls (get_graph (Some "My Sample Graph") None None) Sample.one_match = 1%nat ∧
  n_calls (get_graph (Some "My Sample Graph") None None) Sample.no_match = 1%nat.
Proof. split; reflexivity. Qed.

(** A positive [total] with an empty [graphs] list: [graphs[0]] raises. *)
Example get_graph_total_without_graphs :
  result (get_graph (Some "My Sample Graph") None None
            [ inr (JObj {[ "total" := JInt 1; "graphs" := JList [] ]}) ]) =
    inl IndexError.
Proof. reflexivity. Qed.

(** C1, as stated, fails: [get_graph(name='My Sample Graph')] does not make
    two calls (it makes one, the lookup itself, here with the graph found);
    and [delete_graph(name='My Sample Graph')] does not make two calls when
    the lookup finds nothing (it makes one, and raises). *)
Lemma C1_counterexample :
  n_calls (get_graph (Some "My Sample Graph") None None) Sample.one_match
    ≠ 2%nat ∧
  n_calls (delete_graph (Some "My Sample Graph") None) Sample.no_match
    ≠ 2%nat.
Proof. split; vm_compute; discriminate. Qed.

(** C4 on two scripted answers: [total: 0] gives [None]; [total: 1] gives the
    first listed graph, whose id is 65930. *)
Lemma C4_lookup_by_name_result_witness :
  result (get_graph (Some "My Sample Graph") None None Sample.no_match) =
    inr None ∧
  ∃ graph : Envelope.Graph,
    result (get_graph (Some "My Sample Graph") None None Sample.one_match) =
      inr (Some graph) ∧
    Envelope.Graph_id graph = Some 65930.
Proof.
  split.
  - apply (proj1 (C4_lookup_by_name_result Sample.GRAPHS_PATH Sample.client
             "My Sample Graph" None Sample.no_match
             {[ "total" := JInt 0; "graphs" := JList [] ]} eq_refl)).
    reflexivity.
  - eexists. split.
    + etrans.
      * apply (proj2 (C4_lookup_by_name_result Sample.GRAPHS_PATH Sample.client
                 "My Sample Graph" None Sample.one_match _ eq_refl)
                 1 (JObj {[ "graph" := Sample.entity 65930 "My Sample Graph" ]})
                 []); [reflexivity | lia | reflexivity].
      * reflexivity.
    + reflexivity.
Defined.

(** C5 on a scripted answer with [total: 0]. *)
Lemma C5_delete_by_name_not_found_witness :
  result (delete_graph (Some "My Sample Graph") None Sample.no_match) =
    inl (Exception
           "Graph with name `My Sample Graph` doesnt exist for user `user1@example.com`!") ∧
  requests (delete_graph (Some "My Sample Graph") None Sample.no_match) =
    [lookup_request "My Sample Graph" None].
Proof.
  pose proof (C5_delete_by_name_not_found Sample.GRAPHS_PATH Sample.client
                "My Sample Graph" Sample.no_match eq_refl)
    as (Hresult & _ & _ & Hrequests & _).
  split; [exact Hresult | exact Hrequests].
Defined.

(** C6, as stated, fails: asked for at most one public graph, of a service
    that lists two, [get_public_graphs(limit=1)] returns both. *)
Lemma C6_counterexample :
  ∃ graphs : list Envelope.Graph,
    result (get_public_graphs None 1 0 Sample.two_listed) = inr graphs ∧
    ¬ (Z.of_nat (length graphs) ≤ 1).
Proof. eexists. split; [reflexivity |]. vm_compute. by intros H. Qed.

(** C7 on the two payloads, by name, with the graph found. *)
Lemma C7_set_visibility_is_update_witness :
  make_graph_public (Some "My Sample Graph") None Sample.one_match =
    update_graph Sample.public_payload (Some "My Sample Graph") None None
      Sample.one_match ∧
  make_graph_private (Some "My Sample Graph") None Sample.one_match =
    update_graph Sample.private_payload (Some "My Sample Graph") None None
      Sample.one_match.
Proof.
  apply (C7_set_visibility_is_update Sample.GRAPHS_PATH Sample.client
           Sample.public_payload Sample.private_payload eq_refl eq_refl).
Defined.

(** C10 on two scripted answers without [total], one of them with a [graphs]
    entry that is not even a list. *)
Lemma C10_lookup_without_total_witness :
  result (get_graph (Some "My Sample Graph") None None Sample.no_total) =
    inr None ∧
  result (get_graph (Some "My Sample Graph") None None
            Sample.no_total_but_graphs) =
    result (get_graph (Some "My Sample Graph") None None Sample.no_total).
Proof.
  pose proof (C10_lookup_without_total Sample.GRAPHS_PATH Sample.client
                "My Sample Graph" None
                Sample.no_total Sample.no_total_but_graphs
                {[ "message" := JStr "nothing to see" ]}
                (<["graphs" := JStr "not a list"]>
                   {[ "message" := JStr "nothing to see" ]})
                eq_refl eq_refl
                (λ key Hkey, lookup_insert_ne _ "graphs" key _ (not_eq_sym Hkey)))
    as [Hnone Hsame].
  split.
  - apply Hnone. reflexivity.
  - apply Hsame. vm_compute. discriminate.
Defined.

End Samples.

(** * Further properties of the endpoint *)

Section Coverage.
Import Graphs.
Context {World : Type} {objects : ObjectModel}.
Variable GRAPHS_PATH : string.
Variable client : Client World.

#[local] Abbreviation get_graph := (Graphs.get_graph GRAPHS_PATH client).
#[local] Abbreviation delete_graph := (Graphs.delete_graph GRAPHS_PATH client).
#[local] Abbreviation update_graph := (Graphs.update_graph GRAPHS_PATH client).
#[local] Abbreviation make_graph_public := (Graphs.make_graph_public GRAPHS_PATH client).
#[local] Abbreviation make_graph_private := (Graphs.make_graph_private GRAPHS_PATH client).
#[local] Abbreviation post_graph := (Graphs.post_graph GRAPHS_PATH client).
#[local] Abbreviation get_public_graphs := (Graphs.get_public_graphs GRAPHS_PATH client).
#[local] Abbreviation get_shared_graphs := (Graphs.get_shared_graphs GRAPHS_PATH client).
#[local] Abbreviation get_my_graphs := (Graphs.get_my_graphs GRAPHS_PATH client).
#[local] Abbreviation lookup_request := (Graphs.lookup_request GRAPHS_PATH client).
#[local] Abbreviation answer := (Graphs.answer client).

(** A call whose answer is an exception raises it. *)
Lemma call_lift_raises {A} (req : Request) (f : JSON → PyExc + A) e w :
  answer req w = inl e →
  raises_after_one_call (response ← call client req; lift (f response)) e w.
Proof.
  intros He. split.
  - by rewrite (call_lift_result client), He.
  - unfold n_calls. by rewrite (call_lift_requests client).
Qed.

Lemma get_graph_by_name_raises name owner_email e w :
  answer (lookup_request name owner_email) w = inl e →
  result (get_graph (Some name) None owner_email w) = inl e.
Proof. intros He. by rewrite get_graph_by_name_result, He. Qed.

(** What a method that resolves a name first returns. *)
Lemma resolved_result {A} name owner_email (k : Z → M World A) w :
  result ((graph ← get_graph (Some name) None owner_email;
           match graph ≫= Graph_id with
           | None => raise (Exception (not_found_message client name))
           | Some graph_id => k graph_id
           end) w) =
    match result (get_graph (Some name) None owner_email w) with
    | inl e => inl e
    | inr found =>
        match found ≫= Graph_id with
        | None => inl (Exception (not_found_message client name))
        | Some graph_id =>
            result (k graph_id (world (get_graph (Some name) None owner_email w)))
        end
    end.
Proof.
  rewrite result_bind. destruct (result _) as [e | found]; [done |].
  by destruct (found ≫= Graph_id).
Qed.

(** When the transport raises, whatever the request, every method that
    reaches it raises the same exception after that single request: nothing
    is swallowed and nothing is tried again; a method that resolves a name
    first stops at the lookup. *)
Theorem transport_error_is_raised (e : PyExc) (w : World) :
  (∀ req : Request, answer req w = inl e) →
  (∀ graph, raises_after_one_call (post_graph graph) e w) ∧
  (∀ tags limit offset,
     raises_after_one_call (get_public_graphs tags limit offset) e w ∧
     raises_after_one_call (get_shared_graphs tags limit offset) e w ∧
     raises_after_one_call (get_my_graphs tags limit offset) e w) ∧
  (∀ graph name graph_id owner_email,
     raises_after_one_call (get_graph name (Some graph_id) owner_email) e w ∧
     raises_after_one_call (delete_graph name (Some graph_id)) e w ∧
     raises_after_one_call (update_graph graph name (Some graph_id) owner_email) e w ∧
     raises_after_one_call (make_graph_public name (Some graph_id)) e w ∧
     raises_after_one_call (make_graph_private name (Some graph_id)) e w) ∧
  (∀ graph name owner_email,
     raises_after_one_call (get_graph (Some name) None owner_email) e w ∧
     raises_after_one_call (delete_graph (Some name) None) e w ∧
     raises_after_one_call (update_graph graph (Some name) None owner_email) e w ∧
     raises_after_one_call (make_graph_public (Some name) None) e w ∧
     raises_after_one_call (make_graph_private (Some name) None) e w).
Proof.
  intros Hdown.
  assert (∀ name owner_email,
            result (get_graph (Some name) None owner_email w) = inl e) as Hlookup
    by (intros; by apply get_graph_by_name_raises).
  split; [| split; [| split]].
  - intros graph. by apply call_lift_raises.
  - intros tags limit offset. split_and!; by apply call_lift_raises.
  - intros graph name graph_id owner_email. split_and!;
      try by apply call_lift_raises.
    split.
    + unfold Graphs.get_graph. rewrite result_bind, call_result.
      fold (answer (mkRequest GET (GRAPHS_PATH +:+ str graph_id) None None) w).
      by rewrite Hdown.
    + unfold n_calls. by rewrite get_graph_by_id_requests.
  - intros graph name owner_email. unfold raises_after_one_call, n_calls.
    split_and!.
    + apply Hlookup.
    + by rewrite get_graph_by_name_requests.
    + unfold Graphs.delete_graph. by rewrite resolved_result, Hlookup.
    + by rewrite delete_graph_by_name_requests, Hlookup.
    + unfold Graphs.update_graph. by rewrite resolved_result, Hlookup.
    + by rewrite update_graph_by_name_requests, Hlookup.
    + unfold Graphs.make_graph_public. by rewrite resolved_result, Hlookup.
    + by rewrite make_graph_public_by_name_requests, Hlookup.
    + unfold Graphs.make_graph_private. by rewrite resolved_result, Hlookup.
    + by rewrite make_graph_private_by_name_requests, Hlookup.
Qed.

(** When the lookup by name answers without raising but yields no graph with
    an [id] (no graph at all, or a graph whose [id] is [None]),
    [delete_graph], [make_graph_public] and [make_graph_private] raise the
    "doesnt exist" [Exception], and the lookup is their only request. *)
Theorem unresolved_name_is_not_found (name : string) (w : World)
    (found : option Graph) :
  result (get_graph (Some name) None None w) = inr found →
  found ≫= Graph_id = None →
  (result (delete_graph (Some name) None w) =
     inl (Exception (not_found_message client name)) ∧
   requests (delete_graph (Some name) None w) = [lookup_request name None]) ∧
  (result (make_graph_public (Some name) None w) =
     inl (Exception (not_found_message client name)) ∧
   requests (make_graph_public (Some name) None w) = [lookup_request name None]) ∧
  (result (make_graph_private (Some name) None w) =
     inl (Exception (not_found_message client name)) ∧
   requests (make_graph_private (Some name) None w) = [lookup_request name None]).
Proof.
  intros Hfound Hnone.
  assert (resolved_id (result (get_graph (Some name) None None w)) = None)
    as Hunresolved by (rewrite Hfound; by destruct found).
  split_and!.
  - unfold Graphs.delete_graph. by rewrite resolved_result, Hfound, Hnone.
  - by rewrite delete_graph_by_name_requests, Hunresolved.
  - unfold Graphs.make_graph_public. by rewrite resolved_result, Hfound, Hnone.
  - by rewrite make_graph_public_by_name_requests, Hunresolved.
  - unfold Graphs.make_graph_private. by rewrite resolved_result, Hfound, Hnone.
  - by rewrite make_graph_private_by_name_requests, Hunresolved.
Qed.

(** The same for [update_graph], whose lookup passes [owner_email] on: no
    [PUT] is made, and the message names the caller ([client.username]),
    whatever [owner_email] was given. *)
Theorem update_unresolved_name_is_not_found (graph : Entity) (name : string)
    (owner_email : option string) (w : World) (found : option Graph) :
  result (get_graph (Some name) None owner_email w) = inr found →
  found ≫= Graph_id = None →
  result (update_graph graph (Some name) None owner_email w) =
    inl (Exception (not_found_message client name)) ∧
  contains (username client) (not_found_message client name) ∧
  requests (update_graph graph (Some name) None owner_email w) =
    [lookup_request name owner_email].
Proof.
  intros Hfound Hnone. split_and!.
  - unfold Graphs.update_graph. by rewrite resolved_result, Hfound, Hnone.
  - apply not_found_message_contains.
  - rewrite update_graph_by_name_requests, Hfound. cbn.
    destruct found as [g |]; cbn in *; by rewrite ?Hnone.
Qed.

(** Running the lookup and then [k] on the id found. *)
Lemma resolved_run {A} name owner_email (k : Z → M World A) graph_id w :
  resolved_id (result (get_graph (Some name) None owner_email w)) =
    Some graph_id →
  (graph ← get_graph (Some name) None owner_email;
   match graph ≫= Graph_id with
   | None => raise (Exception (not_found_message client name))
   | Some graph_id => k graph_id
   end) w =
  (get_graph (Some name) None owner_email ≫= λ _, k graph_id) w.
Proof.
  intros Hid. unfold mbind, M_bind. cbn.
  destruct (result _) as [e | [g |]]; cbn in *; try done.
  by rewrite Hid.
Qed.

(** When the lookup by name resolves to the id [graph_id], [delete_graph],
    [make_graph_public] and [make_graph_private] by name run exactly as the
    lookup followed by the same method by id on [graph_id], in the world the
    lookup left: same result, same requests in order, same final world. *)
Theorem by_name_is_lookup_then_by_id (name : string) (graph_id : Z) (w : World) :
  resolved_id (result (get_graph (Some name) None None w)) = Some graph_id →
  delete_graph (Some name) None w =
    (get_graph (Some name) None None ≫=
       λ _, delete_graph None (Some graph_id)) w ∧
  make_graph_public (Some name) None w =
    (get_graph (Some name) None None ≫=
       λ _, make_graph_public None (Some graph_id)) w ∧
  make_graph_private (Some name) None w =
    (get_graph (Some name) None None ≫=
       λ _, make_graph_private None (Some graph_id)) w.
Proof.
  intros Hid. split_and!.
  - unfold Graphs.delete_graph at 1. by rewrite (resolved_run _ _ _ graph_id).
  - unfold Graphs.make_graph_public at 1. by rewrite (resolved_run _ _ _ graph_id).
  - unfold Graphs.make_graph_private at 1. by rewrite (resolved_run _ _ _ graph_id).
Qed.

(** Likewise [update_graph] by name is its lookup (the only place
    [owner_email] is used) followed by [update_graph] by id. *)
Theorem update_by_name_is_lookup_then_update_by_id (graph : Entity)
    (name : string) (owner_email : option string) (graph_id : Z) (w : World) :
  resolved_id (result (get_graph (Some name) None owner_email w)) =
    Some graph_id →
  update_graph graph (Some name) None owner_email w =
    (get_graph (Some name) None owner_email ≫=
       λ _, update_graph graph None (Some graph_id) None) w.
Proof.
  intros Hid. unfold Graphs.update_graph at 1.
  by rewrite (resolved_run _ _ _ graph_id).
Qed.



(** The HTTP methods each method uses, in every world: the reading methods
    make [GET] requests only; [post_graph] only [POST]; [delete_graph] only
    [GET] and [DELETE]; [update_graph], [make_graph_public] and
    [make_graph_private] only [GET] and [PUT]. *)
Theorem request_methods :
  (∀ name graph_id owner_email,
     only_uses [GET] (get_graph name graph_id owner_email)) ∧
  (∀ tags limit offset,
     only_uses [GET] (get_public_graphs tags limit offset) ∧
     only_uses [GET] (get_shared_graphs tags limit offset) ∧
     only_uses [GET] (get_my_graphs tags limit offset)) ∧
  (∀ graph, only_uses [POST] (post_graph graph)) ∧
  (∀ name graph_id, only_uses [GET; DELETE] (delete_graph name graph_id)) ∧
  (∀ graph name graph_id owner_email,
     only_uses [GET; PUT] (update_graph graph name graph_id owner_email)) ∧
  (∀ name graph_id,
     only_uses [GET; PUT] (make_graph_public name graph_id) ∧
     only_uses [GET; PUT] (make_graph_private name graph_id)).
Proof.
  unfold only_uses.
  split; [| split; [| split; [| split; [| split]]]].
  - intros [name |] [graph_id |] owner_email w.
    + rewrite get_graph_by_id_requests. repeat constructor.
    + rewrite get_graph_by_name_requests. repeat constructor.
    + rewrite get_graph_by_id_requests. repeat constructor.
    + constructor.
  - intros tags limit offset.
    split_and!; intros w; unfold Graphs.get_public_graphs,
      Graphs.get_shared_graphs, Graphs.get_my_graphs;
      rewrite (call_lift_requests client); repeat constructor.
  - intros graph w. unfold Graphs.post_graph.
    rewrite (call_lift_requests client). repeat constructor.
  - intros [name |] [graph_id |] w.
    + unfold Graphs.delete_graph. rewrite (call_lift_requests client).
      repeat constructor.
    + rewrite delete_graph_by_name_requests.
      destruct (resolved_id _); repeat constructor.
    + unfold Graphs.delete_graph. rewrite (call_lift_requests client).
      repeat constructor.
    + constructor.
  - intros graph [name |] [graph_id |] owner_email w.
    + unfold Graphs.update_graph. rewrite (call_lift_requests client).
      repeat constructor.
    + rewrite update_graph_by_name_requests.
      destruct (resolved_id _); repeat constructor.
    + unfold Graphs.update_graph. rewrite (call_lift_requests client).
      repeat constructor.
    + constructor.
  - intros name graph_id. split; intros w; destruct name as [name |],
      graph_id as [graph_id |].
    + unfold Graphs.make_graph_public. rewrite (call_lift_requests client).
      repeat constructor.
    + rewrite make_graph_public_by_name_requests.
      destruct (resolved_id _); repeat constructor.
    + unfold Graphs.make_graph_public. rewrite (call_lift_requests client).
      repeat constructor.
    + constructor.
    + unfold Graphs.make_graph_private. rewrite (call_lift_requests client).
      repeat constructor.
    + rewrite make_graph_private_by_name_requests.
      destruct (resolved_id _); repeat constructor.
    + unfold Graphs.make_graph_private. rewrite (call_lift_requests client).
      repeat constructor.
    + constructor.
Qed.

Lemma get_graph_query_own_email name :
  get_graph_query client name (Some (username client)) =
    get_graph_query client name None.
Proof. unfold get_graph_query. by case_decide. Qed.

(** Giving one's own email as [owner_email] is the same as giving none:
    [get_graph] and [update_graph] run identically. *)
Theorem own_email_is_the_default :
  ∀ (graph : Entity) (name : option string) (graph_id : option Z) (w : World),
    get_graph name graph_id (Some (username client)) w =
      get_graph name graph_id None w ∧
    update_graph graph name graph_id (Some (username client)) w =
      update_graph graph name graph_id None w.
Proof.
  intros graph [name |] [graph_id |] w; try done.
  unfold Graphs.update_graph, Graphs.get_graph.
  by rewrite get_graph_query_own_email.
Qed.

(** [post_graph] does not depend on the ['owner_email'] of [graph.json()]: two
    graphs whose serializations agree on every other key give the same run. *)
Theorem post_graph_ignores_given_owner (graph1 graph2 : Entity) (w : World) :
  (∀ key : string, key ≠ "owner_email" → json graph1 !! key = json graph2 !! key) →
  post_graph graph1 w = post_graph graph2 w.
Proof.
  intros Hsame. unfold Graphs.post_graph.
  assert (<["owner_email" := JStr (username client)]> (json graph1) =
          <["owner_email" := JStr (username client)]> (json graph2)) as ->; [| done].
  apply map_eq. intros key. destruct (decide (key = "owner_email")) as [-> |].
  - by rewrite !lookup_insert_eq.
  - rewrite !lookup_insert_ne by done. by apply Hsame.
Qed.

Lemma list_query_tags filter_key filter_value tags limit offset :
  list_query filter_key filter_value tags limit offset !! "tags[]" =
    if decide (filter_key = "tags[]") then
      match tags with
      | Some given => Some (JList (JStr <$> given))
      | None => Some filter_value
      end
    else (λ given : list string, JList (JStr <$> given)) <$> tags.
Proof.
  unfold list_query. destruct tags as [given |]; cbn.
  - rewrite lookup_insert_eq. by case_decide.
  - case_decide as Hkey.
    + subst filter_key. apply lookup_insert_eq.
    + rewrite !lookup_insert_ne by done. by apply lookup_singleton_ne.
Qed.

Lemma list_query_other filter_key filter_value tags limit offset key :
  key ≠ filter_key → key ≠ "limit" → key ≠ "offset" → key ≠ "tags[]" →
  list_query filter_key filter_value tags limit offset !! key = None.
Proof.
  intros. unfold list_query.
  destruct tags as [given |]; rewrite !lookup_insert_ne by done;
    by apply lookup_singleton_ne.
Qed.

(** The three listing methods send [tags] under ['tags[]'] exactly when
    [tags] is not [None], unchanged; their query has no key beside the
    filter entry, ['limit'], ['offset'] and ['tags[]']. *)
Theorem list_methods_send_tags :
  sends_tags GRAPHS_PATH get_public_graphs "is_public" ∧
  sends_tags GRAPHS_PATH get_shared_graphs "member_email" ∧
  sends_tags GRAPHS_PATH get_my_graphs "owner_email".
Proof.
  split_and!; intros tags limit offset w; eexists;
    (split; [apply (call_lift_requests client) |]);
    (split; [by rewrite list_query_tags | intros; by apply list_query_other]).
Qed.

(** An answer to the lookup by name that claims matches and lists none: with
    a positive [total] and no [graphs] entry [get_graph] raises [TypeError]
    ([None[0]]), and with an empty [graphs] list it raises [IndexError]. *)
Theorem lookup_positive_total_without_match (name : string)
    (owner_email : option string) (w : World) (response : gmap string JSON)
    (total : Z) :
  answer (lookup_request name owner_email) w = inr (JObj response) →
  response !! "total" = Some (JInt total) →
  0 < total →
  (response !! "graphs" = None →
   result (get_graph (Some name) None owner_email w) = inl TypeError) ∧
  (response !! "graphs" = Some (JList []) →
   result (get_graph (Some name) None owner_email w) = inl IndexError).
Proof.
  intros Hanswer Htotal Hpos.
  rewrite get_graph_by_name_result, Hanswer. cbn. rewrite Htotal. cbn.
  rewrite (proj2 (Z.ltb_lt 0 total) Hpos). split; by intros ->.
Qed.

(** [delete_graph] by id returns the ['message'] entry of the answer to its
    [DELETE]; an answer without one raises [KeyError('message')]. *)
Theorem delete_by_id_returns_the_message (name : option string) (graph_id : Z)
    (w : World) (response : gmap string JSON) :
  answer (mkRequest DELETE (GRAPHS_PATH +:+ str graph_id) None None) w =
    inr (JObj response) →
  result (delete_graph name (Some graph_id) w) =
    match response !! "message" with
    | Some message => inr message
    | None => inl (KeyError (JStr "message"))
    end.
Proof.
  intros Hanswer. unfold Graphs.delete_graph.
  by rewrite (call_lift_result client), Hanswer.
Qed.

Lemma str_inj (a b : Z) : str a = str b → a = b.
Proof.
  unfold str. intros Heq. apply DecimalZ.to_int_inj.
  assert (∀ z, NilZero.int_of_string (NilZero.string_of_int (Z.to_int z)) =
               Some (Z.to_int z)) as Hparse.
  { intros z. apply NilZero.isi; destruct z as [| p | p]; cbn; try done;
      intros [= Hnil]; by apply (DecimalPos.Unsigned.to_uint_nonnil p). }
  apply (inj Some). by rewrite <- !Hparse, Heq.
Qed.

(** The path [GRAPHS_PATH + str(graph_id)] determines the graph: two ids have
    the same path only when they are equal. *)
Theorem by_id_paths_are_distinct :
  ∀ (m m' : Method) (payload payload' : option (gmap string JSON)) (a b : Z),
    path (Graphs.by_id_request GRAPHS_PATH m a payload) =
      path (Graphs.by_id_request GRAPHS_PATH m' b payload') ↔ a = b.
Proof.
  intros m m' payload payload' a b. split; [| by intros ->].
  cbn. intros Hpath.
  by apply str_inj, (inj (String.app GRAPHS_PATH)).
Qed.

(** [delete_graph], [make_graph_public] and [make_graph_private] by name look
    the graph up among the caller's own graphs: their first request is the
    [GET] whose query is exactly [{'owner_email': client.username,
    'names[]': name}], with no ['is_public']. *)
Theorem by_name_looks_among_own_graphs :
  ∀ (name : string) (w : World),
    let own : Request :=
      mkRequest GET GRAPHS_PATH None
        (Some {[ "owner_email" := JStr (username client);
                 "names[]" := JStr name ]}) in
    head (requests (delete_graph (Some name) None w)) = Some own ∧
    head (requests (make_graph_public (Some name) None w)) = Some own ∧
    head (requests (make_graph_private (Some name) None w)) = Some own.
Proof.
  intros name w. cbn zeta.
  by rewrite delete_graph_by_name_requests, make_graph_public_by_name_requests,
    make_graph_private_by_name_requests.
Qed.
End Coverage.

(** ** The edge runs *)

Section EdgeRuns.
Import Graphs.

#[local] Existing Instance Envelope.model.

#[local] Abbreviation get_graph :=
  (Graphs.get_graph Sample.GRAPHS_PATH Sample.client).
#[local] Abbreviation delete_graph :=
  (Graphs.delete_graph Sample.GRAPHS_PATH Sample.client).
#[local] Abbreviation update_graph :=
  (Graphs.update_graph Sample.GRAPHS_PATH Sample.client).
#[local] Abbreviation make_graph_public :=
  (Graphs.make_graph_public Sample.GRAPHS_PATH Sample.client).
#[local] Abbreviation post_graph :=
  (Graphs.post_graph Sample.GRAPHS_PATH Sample.client).
#[local] Abbreviation lookup_request :=
  (Graphs.lookup_request Sample.GRAPHS_PATH Sample.client).

(** The service is down: deleting by name stops at the lookup. *)
Lemma transport_error_is_raised_witness :
  result (delete_graph (Some "My Sample Graph") None Edge.transport_down) =
    inl Edge.unavailable ∧
  n_calls (delete_graph (Some "My Sample Graph") None) Edge.transport_down =
    1%nat.
Proof.
  pose proof (transport_error_is_raised Sample.GRAPHS_PATH Sample.client
                Edge.unavailable Edge.transport_down (λ req, eq_refl))
    as (_ & _ & _ & Hby_name).
  destruct (Hby_name Sample.public_payload "My Sample Graph" None)
    as (_ & Hdelete & _).
  exact Hdelete.
Defined.

(** The graph found carries no id: nothing is deleted. *)
Lemma unresolved_name_is_not_found_witness :
  result (delete_graph (Some "My Sample Graph") None Edge.match_without_id) =
    inl (Exception
           "Graph with name `My Sample Graph` doesnt exist for user `user1@example.com`!") ∧
  requests (delete_graph (Some "My Sample Graph") None Edge.match_without_id) =
    [lookup_request "My Sample Graph" None].
Proof.
  pose proof (unresolved_name_is_not_found Sample.GRAPHS_PATH Sample.client
                "My Sample Graph" Edge.match_without_id
                (Some (Envelope.mkGraph Edge.anonymous)) eq_refl eq_refl)
    as (Hdelete & _).
  exact Hdelete.
Defined.

(** Updating, by name, a graph of another user that has no id. *)
Lemma update_unresolved_name_is_not_found_witness :
  result (update_graph Sample.public_payload (Some "My Sample Graph") None
            (Some "user2@example.com") Edge.match_without_id) =
    inl (Exception
           "Graph with name `My Sample Graph` doesnt exist for user `user1@example.com`!").
Proof.
  pose proof (update_unresolved_name_is_not_found Sample.GRAPHS_PATH
                Sample.client Sample.public_payload "My Sample Graph"
                (Some "user2@example.com") Edge.match_without_id
                (Some (Envelope.mkGraph Edge.anonymous)) eq_refl eq_refl)
    as (Hupdate & _).
  exact Hupdate.
Defined.

(** The graph is found under the id 65930. *)
Lemma by_name_is_lookup_then_by_id_witness :
  delete_graph (Some "My Sample Graph") None Sample.one_match =
    (get_graph (Some "My Sample Graph") None None ≫=
       λ _, delete_graph None (Some 65930)) Sample.one_match.
Proof.
  pose proof (by_name_is_lookup_then_by_id Sample.GRAPHS_PATH Sample.client
                "My Sample Graph" 65930 Sample.one_match eq_refl)
    as (Hdelete & _).
  exact Hdelete.
Defined.

Lemma update_by_name_is_lookup_then_update_by_id_witness :
  update_graph Sample.public_payload (Some "My Sample Graph") None
    (Some "user2@example.com") Sample.one_match =
    (get_graph (Some "My Sample Graph") None (Some "user2@example.com") ≫=
       λ _, update_graph Sample.public_payload None (Some 65930) None)
      Sample.one_match.
Proof.
  exact (update_by_name_is_lookup_then_update_by_id Sample.GRAPHS_PATH
           Sample.client Sample.public_payload "My Sample Graph"
           (Some "user2@example.com") 65930 Sample.one_match eq_refl).
Defined.

(** Posting a graph that names another owner. *)
Lemma post_graph_ignores_given_owner_witness :
  post_graph Edge.owned_by_another Sample.one_match =
    post_graph Edge.unowned Sample.one_match.
Proof.
  apply (post_graph_ignores_given_owner Sample.GRAPHS_PATH Sample.client
           Edge.owned_by_another Edge.unowned Sample.one_match).
  intros key Hkey. apply lookup_insert_ne. by apply not_eq_sym.
Defined.

Lemma lookup_positive_total_without_match_witness :
  result (get_graph (Some "My Sample Graph") None None
            [ inr (JObj Edge.total_only) ]) = inl TypeError ∧
  result (get_graph (Some "My Sample Graph") None None
            [ inr (JObj Edge.total_and_nothing) ]) = inl IndexError.
Proof.
  split.
  - apply (proj1 (lookup_positive_total_without_match Sample.GRAPHS_PATH
                    Sample.client "My Sample Graph" None
                    [ inr (JObj Edge.total_only) ] Edge.total_only 1
                    eq_refl eq_refl eq_refl)).
    reflexivity.
  - apply (proj2 (lookup_positive_total_without_match Sample.GRAPHS_PATH
                    Sample.client "My Sample Graph" None
                    [ inr (JObj Edge.total_and_nothing) ]
                    Edge.total_and_nothing 1 eq_refl eq_refl eq_refl)).
    reflexivity.
Defined.

Lemma delete_by_id_returns_the_message_witness :
  result (delete_graph None (Some 65930) [ inr (JObj Edge.confirmation) ]) =
    inr (JStr "Successfully deleted graph with id=65930") ∧
  result (delete_graph None (Some 65930) [ inr (JObj ∅) ]) =
    inl (KeyError (JStr "message")).
Proof.
  split.
  - exact (delete_by_id_returns_the_message Sample.GRAPHS_PATH Sample.client
             None 65930 [ inr (JObj Edge.confirmation) ] Edge.confirmation
             eq_refl).
  - exact (delete_by_id_returns_the_message Sample.GRAPHS_PATH Sample.client
             None 65930 [ inr (JObj ∅) ] ∅ eq_refl).
Defined.

End EdgeRuns.
